(** * Python-OrbitLab: the body simulation step

    A shallow embedding of the physics code of the curriculum:

    - [Settings], [Body] and [Simulation] of the "Physics for Games" style
      guide (component-based style: [x], [y], [v_x], [v_y], [a_x], [a_y]);
    - [force_vec_due_to] and the planet's [update] of the "Original Custom
      Physics Approach" (vector-based style on [pygame.Vector2]).

    Python's [int] is [Z].  An in-place mutation of [self] is a function
    from the object's state before to its state after; a raised exception
    is the [Raise] branch of [result].

    Python's [float] is embedded twice.  The modules at the top level read
    it as a real number ([R]): they carry the properties that rest on which
    attribute is assigned from which, in which order, and on which
    statement raises, not on the value a rounded operation returns.  The
    modules of [B64] are the same code on binary64 numbers, every operation
    rounded as the interpreter rounds it: they carry the properties about
    computed values. *)

From Stdlib Require Import Reals Lra Psatz ZArith Bool List Lia.
From Stdlib Require Floats.
Import ListNotations.
Open Scope R_scope.
Set Warnings "-inexact-float".

(** ** Exceptions *)

Inductive PyError : Type :=
| ZeroDivisionError
| ValueError.

Inductive result (A : Type) : Type :=
| Ok (a : A)
| Raise (e : PyError).

Arguments Ok {A} a.
Arguments Raise {A} e.

Definition bind {A B : Type} (m : result A) (k : A -> result B) : result B :=
  match m with
  | Ok a => k a
  | Raise e => Raise e
  end.

Notation "x <- m ;; k" := (bind m (fun x => k))
  (at level 61, m at next level, right associativity).

(** [a / b] on floats: Python raises [ZeroDivisionError] when [b == 0]. *)
Definition float_div (a b : R) : result R :=
  if Req_dec_T b 0 then Raise ZeroDivisionError else Ok (a / b).

(** ** Settings *)

Module Settings.

Record t : Type := mk {
  SCREEN_WIDTH : Z;
  SCREEN_HEIGHT : Z;
  OBJECT_SIZE : Z;
  GRAVITY : R;
  MASS : R;
  FPS : Z;
  TIMESCALE : Z;
  (* set by [__post_init__]: TIMESCALE / FPS *)
  d_t : R
}.

(** The colours carry no annotation: class attributes, not fields. *)
Definition OBJECT_COLOR : Z * Z * Z := (255, 0, 0)%Z.
Definition BACKGROUND_COLOR : Z * Z * Z := (0, 0, 0)%Z.

End Settings.

(** ** Body (component-based style) *)

Module Body.

Record t : Type := mk {
  x : R;
  y : R;
  v_x : R;
  v_y : R;
  a_x : R;
  a_y : R;
  mass : R;
  settings : Settings.t;
  size : Z
}.

(** Attribute assignments [self.f = v]. *)
Definition set_x (self : t) (v : R) : t :=
  mk v (y self) (v_x self) (v_y self) (a_x self) (a_y self)
     (mass self) (settings self) (size self).
Definition set_y (self : t) (v : R) : t :=
  mk (x self) v (v_x self) (v_y self) (a_x self) (a_y self)
     (mass self) (settings self) (size self).
Definition set_v_x (self : t) (v : R) : t :=
  mk (x self) (y self) v (v_y self) (a_x self) (a_y self)
     (mass self) (settings self) (size self).
Definition set_v_y (self : t) (v : R) : t :=
  mk (x self) (y self) (v_x self) v (a_x self) (a_y self)
     (mass self) (settings self) (size self).
Definition set_a_x (self : t) (v : R) : t :=
  mk (x self) (y self) (v_x self) (v_y self) v (a_y self)
     (mass self) (settings self) (size self).
Definition set_a_y (self : t) (v : R) : t :=
  mk (x self) (y self) (v_x self) (v_y self) (a_x self) v
     (mass self) (settings self) (size self).

(** A keyword argument with a default: [None] when the caller omits it. *)
Definition or_default (arg : option R) (dflt : R) : R :=
  match arg with
  | Some v => v
  | None => dflt
  end.

(** [Body(x, y, mass, settings, v_x=0.0, v_y=0.0)]. *)
Definition __init__ (x y mass : R) (settings : Settings.t)
    (v_x v_y : option R) : t :=
  mk x y
     (or_default v_x 0) (or_default v_y 0)
     0 0
     mass settings
     (Settings.OBJECT_SIZE settings).

(** [Body.update], statement by statement. *)
Definition update (self : t) : t :=
  (* Update velocity with acceleration *)
  let self := set_v_x self (v_x self + a_x self * Settings.d_t (settings self)) in
  let self := set_v_y self (v_y self + a_y self * Settings.d_t (settings self)) in
  (* Update position with velocity *)
  let self := set_x self (x self + v_x self * Settings.d_t (settings self)) in
  let self := set_y self (y self + v_y self * Settings.d_t (settings self)) in
  (* Reset acceleration *)
  let self := set_a_x self 0 in
  let self := set_a_y self 0 in
  self.

(** [n] calls of [update] in a row, nothing in between. *)
Fixpoint update_n (n : nat) (self : t) : t :=
  match n with
  | O => self
  | S k => update_n k (update self)
  end.

(** Modelled from the spec: force application of the accumulating kind,
    whose code is not among the sources; [c] is one contribution
    [force / mass] to the acceleration. *)
Definition accumulate (self : t) (c : R * R) : t :=
  set_a_y (set_a_x self (a_x self + fst c)) (a_y self + snd c).

(** Modelled from the spec: all the contributions of one frame, in order. *)
Definition accumulate_all (self : t) (cs : list (R * R)) : t :=
  fold_left accumulate cs self.

(** One frame with an arbitrary force application [forces]. *)
Definition frame (forces : t -> t) (self : t) : t :=
  update (forces self).

Definition run_frames (fs : list (t -> t)) (self : t) : t :=
  fold_left (fun b forces => frame forces b) fs self.

(** The acceleration carries nothing over from an earlier frame. *)
Definition acceleration_clear (self : t) : Prop :=
  a_x self = 0 /\ a_y self = 0.

Definition sum_x (cs : list (R * R)) : R :=
  fold_right (fun c acc => fst c + acc) 0 cs.
Definition sum_y (cs : list (R * R)) : R :=
  fold_right (fun c acc => snd c + acc) 0 cs.

End Body.

(** ** pygame.Vector2

    The vector class of the library the scripts run on, with the operations
    the orbit code calls, as the library documents them. *)

Module Vector2.

Record t : Type := mk { x : R; y : R }.

Definition add (u v : t) : t := mk (x u + x v) (y u + y v).
Definition sub (u v : t) : t := mk (x u - x v) (y u - y v).

(** [u * k] for a number [k]. *)
Definition mul (u : t) (k : R) : t := mk (x u * k) (y u * k).

(** [u / k] for a number [k]: [ZeroDivisionError] when [k == 0]. *)
Definition truediv (u : t) (k : R) : result t :=
  if Req_dec_T k 0 then Raise ZeroDivisionError
  else Ok (mk (x u / k) (y u / k)).

Definition length_squared (u : t) : R := x u * x u + y u * y u.
Definition length (u : t) : R := sqrt (length_squared u).

Definition distance_squared_to (u v : t) : R :=
  (x v - x u) * (x v - x u) + (y v - y u) * (y v - y u).

(** [u.normalize()]: [ValueError] on a vector of length zero. *)
Definition normalize (u : t) : result t :=
  if Req_dec_T (length u) 0 then Raise ValueError
  else Ok (mk (x u / length u) (y u / length u)).

End Vector2.

(** ** Celestial bodies (vector-based style) *)

Module CelestialBody.

Record t : Type := mk {
  pos : Vector2.t;
  vel : Vector2.t;
  mass : R
}.

(** The body that orbits: a celestial body that also knows its [sun]. *)
Record Planet : Type := mkPlanet {
  body :> t;
  sun : t
}.

Definition set_vel (self : Planet) (v : Vector2.t) : Planet :=
  mkPlanet (mk (pos self) v (mass self)) (sun self).
Definition set_pos (self : Planet) (p : Vector2.t) : Planet :=
  mkPlanet (mk p (vel self) (mass self)) (sun self).

Section Globals.

(** The module-level constants of the script. *)
Variable G : R.
Variable d_T : R.

Definition force_vec_due_to (self other : t) : result Vector2.t :=
  let r2 := Vector2.distance_squared_to (pos self) (pos other) in
  f_g <- float_div (G * mass self * mass other) r2 ;;
  u <- Vector2.normalize (Vector2.sub (pos other) (pos self)) ;;
  let f := Vector2.mul u f_g in
  Ok f.

Definition update (self : Planet) : result Planet :=
  f <- force_vec_due_to self (sun self) ;;
  a <- Vector2.truediv f (mass self) ;;
  (* Euler integration *)
  let self := set_vel self (Vector2.add (vel self) (Vector2.mul a d_T)) in
  let self := set_pos self (Vector2.add (pos self) (Vector2.mul (vel self) d_T)) in
  Ok self.

End Globals.

End CelestialBody.

(** A planet is used as a celestial body wherever one is expected. *)
Coercion CelestialBody.body : CelestialBody.Planet >-> CelestialBody.t.

(** ** Separation and direction

    The separation [r] of two positions and the unit vector from one
    toward the other. *)

Module Newton.



End Newton.

(** ** Boundary collision *)

Module Boundary.

(** The walls of the screen or world. *)
Record t : Type := mk {
  x_min : R;
  x_max : R;
  y_min : R;
  y_max : R
}.

(** Modelled from the spec: the boundary collision response of the bounce
    programs, whose code is not among the sources.  "When position crosses
    a screen/world boundary, velocity's component perpendicular to the
    boundary is negated (elastic bounce) and position is clamped to the
    boundary"; the check returns a boolean "indicating collision
    occurred".  It reads the body and the walls and nothing else. *)
Definition bounce_x (w : t) (self : Body.t) : Body.t * bool :=
  if Rlt_dec (x_max w) (Body.x self) then
    (Body.set_v_x (Body.set_x self (x_max w)) (- Body.v_x self), true)
  else if Rlt_dec (Body.x self) (x_min w) then
    (Body.set_v_x (Body.set_x self (x_min w)) (- Body.v_x self), true)
  else (self, false).

(** Modelled from the spec: the same response at the walls in [y]. *)
Definition bounce_y (w : t) (self : Body.t) : Body.t * bool :=
  if Rlt_dec (y_max w) (Body.y self) then
    (Body.set_v_y (Body.set_y self (y_max w)) (- Body.v_y self), true)
  else if Rlt_dec (Body.y self) (y_min w) then
    (Body.set_v_y (Body.set_y self (y_min w)) (- Body.v_y self), true)
  else (self, false).

(** Modelled from the spec: the per-frame check, both directions, which
    reports whether any wall was hit. *)
Definition check_collisions (w : t) (self : Body.t) : Body.t * bool :=
  let (self, hit_x) := bounce_x w self in
  let (self, hit_y) := bounce_y w self in
  (self, orb hit_x hit_y).

End Boundary.

(** ** The orbit as a run of steps *)

Module Mechanics.


(** [n] calls of the planet's [update] in a row; the first exception ends
    the run. *)
Fixpoint update_n (G d_T : R) (n : nat) (p : CelestialBody.Planet)
    : result CelestialBody.Planet :=
  match n with
  | O => Ok p
  | S k => p' <- CelestialBody.update G d_T p ;; update_n G d_T k p'
  end.

End Mechanics.

(** ** Simulation: the main loop

    The [Simulation] class of the style guide.  What a program fills in,
    its game objects and how they are updated and drawn, is a parameter;
    the handles of the library (screen, clock) are not part of the state;
    the calls into the library are recorded as a list of actions.  The
    events that successive calls of [pygame.event.get()] return are the
    input. *)

Module Simulation.

Record Event : Type := mkEvent { type : Z }.

Inductive Action : Type :=
| Fill (color : Z * Z * Z)
| Rect (color : Z * Z * Z) (left top : R) (width height : Z)
| Flip
| Tick (fps : Z)
| Quit.

(** How a run over the given input ends: the loop was left, or it is
    still going and asks for events that the input does not hold. *)
Inductive Outcome (A : Type) : Type :=
| Exited (self : A)
| Looping (self : A).

Arguments Exited {A} self.
Arguments Looping {A} self.

(** [Body.draw]: one rectangle at the body's position. *)
Definition draw_body (b : Body.t) : list Action :=
  [Rect Settings.OBJECT_COLOR (Body.x b) (Body.y b) (Body.size b) (Body.size b)].

Section Program.

Variable State : Type.
Variable update_objects : State -> State.
Variable draw_objects : State -> list Action.

(** [pygame.QUIT], a constant of the library. *)
Variable QUIT : Z.

Record t : Type := mk {
  settings : Settings.t;
  objects : State
}.

Definition update (self : t) : t :=
  mk (settings self) (update_objects (objects self)).

Definition draw (self : t) : list Action :=
  [Fill Settings.BACKGROUND_COLOR] ++ draw_objects (objects self) ++ [Flip].

(** The event loop of one frame: every event is read, and a [QUIT] among
    them clears [running]. *)
Definition handle_events (events : list Event) (running : bool) : bool :=
  fold_left
    (fun running event => if (type event =? QUIT)%Z then false else running)
    events running.

(** The [while running] loop, one batch of events per iteration. *)
Fixpoint run_loop (batches : list (list Event)) (self : t)
    : list Action * Outcome t :=
  match batches with
  | [] => ([], Looping self)
  | events :: batches' =>
      let running := handle_events events true in
      let self := update self in
      let out := draw self ++ [Tick (Settings.FPS (settings self))] in
      if running then
        let (out', r) := run_loop batches' self in
        (out ++ out', r)
      else (out, Exited self)
  end.

(** [run]: the loop, then [pygame.quit()]. *)
Definition run (batches : list (list Event)) (self : t)
    : list Action * Outcome t :=
  let (out, r) := run_loop batches self in
  match r with
  | Exited self => (out ++ [Quit], Exited self)
  | Looping self => (out, Looping self)
  end.

(** What [n] whole iterations do: their actions and the state they leave. *)
Fixpoint frames (n : nat) (self : t) : list Action * t :=
  match n with
  | O => ([], self)
  | S k =>
      let self := update self in
      let out := draw self ++ [Tick (Settings.FPS (settings self))] in
      let (out', self') := frames k self in
      (out ++ out', self')
  end.

Definition no_quit (events : list Event) : Prop :=
  Forall (fun event => type event <> QUIT) events.

Definition has_quit (events : list Event) : Prop :=
  Exists (fun event => type event = QUIT) events.

End Program.

End Simulation.

(** ** Sample objects *)

Module Sample.

(** A settings object with one second per frame, and one with the default
    sixty frames per second. *)
Definition settings_1s : Settings.t :=
  Settings.mk 600 600 50 60 2 1 1 1.
Definition settings_60fps : Settings.t :=
  Settings.mk 600 600 50 60 2 60 1 (1 / 60).

(** At the origin, at rest, pushed with acceleration [(1, 2)]. *)
Definition pushed : Body.t :=
  Body.mk 0 0 0 0 1 2 2 settings_1s 50.

(** Coasting with velocity [(3, -4)], no acceleration. *)
Definition coasting : Body.t :=
  Body.mk 10 20 3 (-4) 0 0 2 settings_60fps 50.

(** Past the right wall of the default screen, moving right at [5]. *)
Definition walls : Boundary.t := Boundary.mk 0 600 0 600.
Definition escaping : Body.t :=
  Body.mk 603 100 5 0 0 0 2 settings_60fps 50.

(** A program with one body, the coasting one, and what the user does:
    nothing in the first frame, a key in the second, and in the third a
    key, the window's close button, and a key again.  The numbers are the
    event types of the library. *)
Definition QUIT : Z := 256.
Definition key_down : Simulation.Event := Simulation.mkEvent 768.
Definition close_window : Simulation.Event := Simulation.mkEvent 256.
Definition one_body : Simulation.t Body.t :=
  Simulation.mk Body.t settings_60fps coasting.
Definition quiet_frames : list (list Simulation.Event) :=
  [[]; [key_down]].
Definition closing_frame : list Simulation.Event :=
  [key_down; close_window; key_down].

End Sample.

(** ** The arithmetic of the interpreter: binary64

    Python's [float] is an IEEE 754 binary64 number, and every [+], [*] and
    [/] of the code rounds.  The modules of [B64] are the code again, with
    the same statements, on Rocq's primitive binary64 floats: they compute,
    and they are what the properties about computed values are stated
    on. *)

Module B64.

Import Floats.PrimFloat.
Local Open Scope float_scope.

(** [a / b] on floats: Python raises [ZeroDivisionError] when [b == 0],
    which [0.0] and [-0.0] both are. *)
Definition float_div (a b : float) : result float :=
  if b =? 0 then Raise ZeroDivisionError else Ok (a / b).

Module Settings.

Record t : Type := mk {
  SCREEN_WIDTH : Z;
  SCREEN_HEIGHT : Z;
  OBJECT_SIZE : Z;
  GRAVITY : float;
  MASS : float;
  FPS : Z;
  TIMESCALE : Z;
  d_t : float
}.

End Settings.

Module Body.

Record t : Type := mk {
  x : float;
  y : float;
  v_x : float;
  v_y : float;
  a_x : float;
  a_y : float;
  mass : float;
  settings : Settings.t;
  size : Z
}.

(** Attribute assignments [self.f = v]. *)
Definition set_x (self : t) (v : float) : t :=
  mk v (y self) (v_x self) (v_y self) (a_x self) (a_y self)
     (mass self) (settings self) (size self).
Definition set_y (self : t) (v : float) : t :=
  mk (x self) v (v_x self) (v_y self) (a_x self) (a_y self)
     (mass self) (settings self) (size self).
Definition set_v_x (self : t) (v : float) : t :=
  mk (x self) (y self) v (v_y self) (a_x self) (a_y self)
     (mass self) (settings self) (size self).
Definition set_v_y (self : t) (v : float) : t :=
  mk (x self) (y self) (v_x self) v (a_x self) (a_y self)
     (mass self) (settings self) (size self).
Definition set_a_x (self : t) (v : float) : t :=
  mk (x self) (y self) (v_x self) (v_y self) v (a_y self)
     (mass self) (settings self) (size self).
Definition set_a_y (self : t) (v : float) : t :=
  mk (x self) (y self) (v_x self) (v_y self) (a_x self) v
     (mass self) (settings self) (size self).

(** [Body.update], statement by statement. *)
Definition update (self : t) : t :=
  (* Update velocity with acceleration *)
  let self := set_v_x self (v_x self + a_x self * Settings.d_t (settings self)) in
  let self := set_v_y self (v_y self + a_y self * Settings.d_t (settings self)) in
  (* Update position with velocity *)
  let self := set_x self (x self + v_x self * Settings.d_t (settings self)) in
  let self := set_y self (y self + v_y self * Settings.d_t (settings self)) in
  (* Reset acceleration *)
  let self := set_a_x self 0.0 in
  let self := set_a_y self 0.0 in
  self.

(** [n] calls of [update] in a row, nothing in between. *)
Fixpoint update_n (n : nat) (self : t) : t :=
  match n with
  | O => self
  | S k => update_n k (update self)
  end.




End Body.


(** pygame.Vector2 holds two C doubles; its operations work coordinate by
    coordinate. *)
Module Vector2.

Record t : Type := mk { x : float; y : float }.

Definition add (u v : t) : t := mk (x u + x v) (y u + y v).
Definition sub (u v : t) : t := mk (x u - x v) (y u - y v).

(** [u * k] for a number [k]. *)
Definition mul (u : t) (k : float) : t := mk (x u * k) (y u * k).

(** [u / k] for a number [k]: [ZeroDivisionError] when [k == 0].  The
    result is each coordinate divided by [k], as the library documents
    the operator; the properties of the planet's step below rest on when
    the division raises, not on the last bit of the quotient. *)
Definition truediv (u : t) (k : float) : result t :=
  if k =? 0 then Raise ZeroDivisionError
  else Ok (mk (x u / k) (y u / k)).

Definition length_squared (u : t) : float := x u * x u + y u * y u.
Definition length (u : t) : float := sqrt (length_squared u).

Definition distance_squared_to (u v : t) : float :=
  (x v - x u) * (x v - x u) + (y v - y u) * (y v - y u).

(** [u.normalize()]: [ValueError] on a vector of length zero. *)
Definition normalize (u : t) : result t :=
  if length u =? 0 then Raise ValueError
  else Ok (mk (x u / length u) (y u / length u)).

End Vector2.

Module CelestialBody.

Record t : Type := mk {
  pos : Vector2.t;
  vel : Vector2.t;
  mass : float
}.

(** The body that orbits: a celestial body that also knows its [sun]. *)
Record Planet : Type := mkPlanet {
  body :> t;
  sun : t
}.

Definition set_vel (self : Planet) (v : Vector2.t) : Planet :=
  mkPlanet (mk (pos self) v (mass self)) (sun self).
Definition set_pos (self : Planet) (p : Vector2.t) : Planet :=
  mkPlanet (mk p (vel self) (mass self)) (sun self).

Section Globals.

(** The module-level constants of the script. *)
Variable G : float.
Variable d_T : float.

Definition force_vec_due_to (self other : t) : result Vector2.t :=
  let r2 := Vector2.distance_squared_to (pos self) (pos other) in
  f_g <- float_div (G * mass self * mass other) r2 ;;
  u <- Vector2.normalize (Vector2.sub (pos other) (pos self)) ;;
  let f := Vector2.mul u f_g in
  Ok f.

Definition update (self : Planet) : result Planet :=
  f <- force_vec_due_to self (sun self) ;;
  a <- Vector2.truediv f (mass self) ;;
  (* Euler integration *)
  let self := set_vel self (Vector2.add (vel self) (Vector2.mul a d_T)) in
  let self := set_pos self (Vector2.add (pos self) (Vector2.mul (vel self) d_T)) in
  Ok self.

End Globals.

End CelestialBody.



(** Neither infinite nor not-a-number. *)
Definition finite (c : float) : Prop := (abs c <? infinity) = true.

(** A planet written in the component-based style: a [Body] at the
    planet's position, with its velocity, with [acc] as the acceleration
    applied for the frame. *)
Definition as_body (s : Settings.t) (size : Z) (p : CelestialBody.Planet)
    (acc : Vector2.t) : Body.t :=
  let c := CelestialBody.body p in
  Body.mk (Vector2.x (CelestialBody.pos c)) (Vector2.y (CelestialBody.pos c))
          (Vector2.x (CelestialBody.vel c)) (Vector2.y (CelestialBody.vel c))
          (Vector2.x acc) (Vector2.y acc)
          (CelestialBody.mass c) s size.

(** *** Sample objects *)

Module Sample.

Definition settings_1s : Settings.t :=
  Settings.mk 600 600 50 60 2 1 1 1.
Definition settings_60fps : Settings.t :=
  Settings.mk 600 600 50 60 2 60 1 (1 / 60).


(** Coasting with velocity [(3, -4)], no acceleration, sixty frames per
    second. *)
Definition coasting : Body.t :=
  Body.mk 10 20 3 (-4) 0 0 2 settings_60fps 50.

(** A sun at the origin and a planet at [(3, 4)]. *)
Definition the_sun : CelestialBody.t :=
  CelestialBody.mk (Vector2.mk 0 0) (Vector2.mk 0 0) 10.
Definition the_planet : CelestialBody.Planet :=
  CelestialBody.mkPlanet
    (CelestialBody.mk (Vector2.mk 3 4) (Vector2.mk 0 1) 2) the_sun.




End Sample.

End B64.

(** A planet is used as a celestial body wherever one is expected. *)
Coercion B64.CelestialBody.body :
  B64.CelestialBody.Planet >-> B64.CelestialBody.t.

(** * Properties of [Body] *)

(** Call-by-value unfolding of the attribute assignments: each [let self]
    of [Body.update] is evaluated before the next one reads it. *)
Ltac body_unfold :=
  cbv [Body.update_n Body.frame Body.update Body.accumulate
       Body.__init__ Body.or_default
       Body.set_x Body.set_y Body.set_v_x Body.set_v_y
       Body.set_a_x Body.set_a_y
       Body.x Body.y Body.v_x Body.v_y Body.a_x Body.a_y
       Body.mass Body.settings Body.size fst snd] in *.

Section BodyStep.

Implicit Types (b self : Body.t) (n : nat).

Lemma update_settings b : Body.settings (Body.update b) = Body.settings b.
Proof. reflexivity. Qed.

Lemma update_v_x b :
  Body.v_x (Body.update b)
  = Body.v_x b + Body.a_x b * Settings.d_t (Body.settings b).
Proof. reflexivity. Qed.

Lemma update_v_y b :
  Body.v_y (Body.update b)
  = Body.v_y b + Body.a_y b * Settings.d_t (Body.settings b).
Proof. reflexivity. Qed.

Lemma update_x b :
  Body.x (Body.update b)
  = Body.x b + Body.v_x (Body.update b) * Settings.d_t (Body.settings b).
Proof. reflexivity. Qed.

Lemma update_y b :
  Body.y (Body.update b)
  = Body.y b + Body.v_y (Body.update b) * Settings.d_t (Body.settings b).
Proof. reflexivity. Qed.

Lemma update_clear b : Body.acceleration_clear (Body.update b).
Proof. split; reflexivity. Qed.

Lemma accumulate_all_a_x cs : forall b,
  Body.a_x (Body.accumulate_all b cs) = Body.a_x b + Body.sum_x cs.
Proof.
  unfold Body.accumulate_all.
  induction cs as [|c cs IH]; intros b; cbn [fold_left Body.sum_x fold_right].
  - lra.
  - rewrite IH. fold (Body.sum_x cs). body_unfold. lra.
Qed.

Lemma accumulate_all_a_y cs : forall b,
  Body.a_y (Body.accumulate_all b cs) = Body.a_y b + Body.sum_y cs.
Proof.
  unfold Body.accumulate_all.
  induction cs as [|c cs IH]; intros b; cbn [fold_left Body.sum_y fold_right].
  - lra.
  - rewrite IH. fold (Body.sum_y cs). body_unfold. lra.
Qed.

Lemma run_frames_snoc fs forces b :
  Body.run_frames (fs ++ [forces]) b
  = Body.frame forces (Body.run_frames fs b).
Proof. unfold Body.run_frames. rewrite fold_left_app. reflexivity. Qed.

(** C1.  One call of [Body.update] is a semi-implicit Euler step: the
    velocity becomes [v + a * dt], the position becomes [p + v' * dt] with
    the velocity [v'] just computed (so [p + (v + a * dt) * dt], not
    [p + v * dt]), and the acceleration becomes zero. *)
Theorem update_semi_implicit_euler b :
  let dt := Settings.d_t (Body.settings b) in
  let b' := Body.update b in
  Body.v_x b' = Body.v_x b + Body.a_x b * dt /\
  Body.v_y b' = Body.v_y b + Body.a_y b * dt /\
  Body.x b' = Body.x b + Body.v_x b' * dt /\
  Body.y b' = Body.y b + Body.v_y b' * dt /\
  Body.x b' = Body.x b + (Body.v_x b + Body.a_x b * dt) * dt /\
  Body.y b' = Body.y b + (Body.v_y b + Body.a_y b * dt) * dt /\
  Body.a_x b' = 0 /\
  Body.a_y b' = 0.
Proof. cbv zeta. repeat split. Qed.

(** On the pushed sample the new velocity [(1, 2)] moves the body to
    [(1, 2)]; the old velocity [(0, 0)] would have left it in place. *)
Example update_pushed :
  Body.update Sample.pushed = Body.mk 1 2 1 2 0 0 2 Sample.settings_1s 50.
Proof.
  unfold Sample.pushed. body_unfold. cbn [Sample.settings_1s Settings.d_t].
  f_equal; lra.
Qed.

End BodyStep.

Section BodyRuns.

Implicit Types (b self : Body.t) (n : nat).

Lemma run_frames_clear fs : forall b,
  fs <> [] -> Body.acceleration_clear (Body.run_frames fs b).
Proof.
  induction fs as [|forces fs _] using rev_ind; intros b Hne.
  - now contradiction Hne.
  - rewrite run_frames_snoc. apply update_clear.
Qed.

Lemma run_frames_preserves_clear fs b :
  Body.acceleration_clear b ->
  Body.acceleration_clear (Body.run_frames fs b).
Proof.
  intros Hb. destruct fs as [|forces fs].
  - exact Hb.
  - apply run_frames_clear. discriminate.
Qed.

Lemma loaded_frame start cs :
  Body.acceleration_clear start ->
  let loaded := Body.accumulate_all start cs in
  Body.a_x loaded = Body.sum_x cs /\
  Body.a_y loaded = Body.sum_y cs /\
  Body.settings loaded = Body.settings start /\
  Body.v_x loaded = Body.v_x start /\
  Body.v_y loaded = Body.v_y start.
Proof.
  intros [Hx Hy]; cbv zeta.
  rewrite accumulate_all_a_x, accumulate_all_a_y, Hx, Hy.
  repeat split; try lra.
  all: unfold Body.accumulate_all; clear Hx Hy; revert start;
    induction cs as [|c cs IH]; intros start; cbn [fold_left];
    [reflexivity | rewrite IH; reflexivity].
Qed.

(** C3.  Every call of [Body.update] ends with the acceleration at zero,
    whatever it was before.  So the invariant "the acceleration is clear
    between frames" holds of a new body, holds after every frame whatever
    forces the frame applied, and is preserved by any run of frames; and
    in the frame that follows, the acceleration that forces accumulate
    and that the integration uses is the sum of that frame's
    contributions alone. *)
Theorem acceleration_reset_each_frame :
  (forall b,
     Body.a_x (Body.update b) = 0 /\ Body.a_y (Body.update b) = 0) /\
  (forall x y m s vx vy,
     Body.acceleration_clear (Body.__init__ x y m s vx vy)) /\
  (forall forces b,
     Body.acceleration_clear (Body.frame forces b)) /\
  (forall fs b,
     Body.acceleration_clear b ->
     Body.acceleration_clear (Body.run_frames fs b)) /\
  (forall fs b,
     fs <> [] -> Body.acceleration_clear (Body.run_frames fs b)) /\
  (forall earlier cs b,
     let start := Body.update (Body.accumulate_all b earlier) in
     let loaded := Body.accumulate_all start cs in
     let dt := Settings.d_t (Body.settings start) in
     Body.a_x loaded = Body.sum_x cs /\
     Body.a_y loaded = Body.sum_y cs /\
     Body.v_x (Body.update loaded) = Body.v_x start + Body.sum_x cs * dt /\
     Body.v_y (Body.update loaded) = Body.v_y start + Body.sum_y cs * dt).
Proof.
  split; [|split; [|split; [|split; [|split]]]].
  - intros b. apply update_clear.
  - intros. split; reflexivity.
  - intros forces b. apply update_clear.
  - intros fs b. apply run_frames_preserves_clear.
  - intros fs b. apply run_frames_clear.
  - intros earlier cs b start loaded dt.
    destruct (loaded_frame start cs (update_clear _))
      as (Hax & Hay & Hs & Hvx & Hvy).
    fold loaded in Hax, Hay, Hs, Hvx, Hvy.
    rewrite update_v_x, update_v_y, Hax, Hay, Hs, Hvx, Hvy.
    repeat split; reflexivity.
Qed.

(** Two frames with the same single contribution [(1, 2)] on the pushed
    sample: the second frame integrates [(1, 2)], not [(2, 4)]. *)
Example second_frame_not_accumulated :
  let frame1 := Body.update (Body.accumulate_all Sample.pushed []) in
  let frame2 := Body.update (Body.accumulate_all frame1 [(1, 2)]) in
  Body.v_x frame1 = 1 /\ Body.v_x frame2 = 2 /\
  Body.v_y frame1 = 2 /\ Body.v_y frame2 = 4.
Proof.
  cbv zeta. unfold Body.accumulate_all, Sample.pushed. cbn [fold_left].
  body_unfold. cbn [Sample.settings_1s Settings.d_t]. repeat split; lra.
Qed.

(** C8.  [Body.update] writes the position, the velocity and the
    acceleration and nothing else: the mass, the size and the settings
    object of the body are the same after one call, and after any number
    of calls. *)
Theorem update_keeps_mass_and_size b n :
  (Body.mass (Body.update b) = Body.mass b /\
   Body.size (Body.update b) = Body.size b /\
   Body.settings (Body.update b) = Body.settings b) /\
  (Body.mass (Body.update_n n b) = Body.mass b /\
   Body.size (Body.update_n n b) = Body.size b /\
   Body.settings (Body.update_n n b) = Body.settings b).
Proof.
  split; [repeat split|].
  revert b. induction n as [|n IH]; intros b; cbn [Body.update_n].
  - repeat split.
  - destruct (IH (Body.update b)) as (Hm & Hz & Hs).
    rewrite Hm, Hz, Hs. repeat split.
Qed.

(** C10.  A body fresh from the constructor has acceleration [(0, 0)];
    a velocity component that is supplied is stored as given, and one that
    is not is [0]; the position, the mass and the settings are the
    arguments, the size the settings' [OBJECT_SIZE].  A call of
    [Body.update] on it, before any force is applied, leaves that velocity
    as it is and moves the position by it times [dt]. *)
Theorem fresh_body_update (x y m : R) (s : Settings.t) (vx vy : option R) :
  let b := Body.__init__ x y m s vx vy in
  let dt := Settings.d_t s in
  (Body.a_x b = 0 /\ Body.a_y b = 0) /\
  ((forall v, vx = Some v -> Body.v_x b = v) /\
   (forall v, vy = Some v -> Body.v_y b = v)) /\
  ((vx = None -> Body.v_x b = 0) /\
   (vy = None -> Body.v_y b = 0)) /\
  (Body.v_x (Body.__init__ x y m s None None) = 0 /\
   Body.v_y (Body.__init__ x y m s None None) = 0) /\
  (Body.x b = x /\ Body.y b = y /\ Body.mass b = m /\
   Body.settings b = s /\ Body.size b = Settings.OBJECT_SIZE s) /\
  (Body.v_x (Body.update b) = Body.v_x b /\
   Body.v_y (Body.update b) = Body.v_y b) /\
  (forall v, vx = Some v ->
     Body.v_x (Body.update b) = v /\ Body.x (Body.update b) = x + v * dt) /\
  (forall v, vy = Some v ->
     Body.v_y (Body.update b) = v /\ Body.y (Body.update b) = y + v * dt) /\
  (vx = None ->
     Body.v_x (Body.update b) = 0 /\ Body.x (Body.update b) = x) /\
  (vy = None ->
     Body.v_y (Body.update b) = 0 /\ Body.y (Body.update b) = y) /\
  (Body.x (Body.update b) = x + Body.v_x b * dt /\
   Body.y (Body.update b) = y + Body.v_y b * dt).
Proof.
  cbv zeta. body_unfold.
  repeat match goal with |- _ /\ _ => split end;
    try (intros v Hv; rewrite Hv);
    try (intros Hv; rewrite Hv);
    repeat match goal with |- _ /\ _ => split end;
    try reflexivity; lra.
Qed.

End BodyRuns.

(** * The force between distinct positions *)

Section VectorFacts.

Implicit Types (u v p q : Vector2.t) (k : R).







End VectorFacts.

Section Gravity.

Variable G : R.

Implicit Types (a b : CelestialBody.t) (p : CelestialBody.Planet).





End Gravity.

(** * Properties of the boundary collision response *)

Ltac bounce_cases :=
  unfold Boundary.check_collisions, Boundary.bounce_x, Boundary.bounce_y in *;
  repeat (match goal with
          | |- context [Rlt_dec ?a ?b] => destruct (Rlt_dec a b)
          end; body_unfold).

Ltac bounce_done :=
  intros; body_unfold;
  first [ lra
        | reflexivity
        | repeat split; first [lra | reflexivity]
        | exfalso; lra ].

(** C4.  The boundary check reverses the velocity component normal to the
    wall a body has crossed and puts the body on that wall: past [x_max] or
    [x_min] the [x] velocity changes sign and [x] becomes the wall's
    coordinate, and likewise in [y]; a body moving at [v_x = 5] past
    [x_max] leaves at [v_x = -5] from [x_max].  A coordinate inside its
    walls is left alone, with its velocity.  The check keeps no state: it
    reads the body and the walls only, writes positions and velocities
    only, and a second check right after a bounce finds nothing to do. *)
Theorem boundary_bounce (w : Boundary.t) (b : Body.t) :
  let b' := fst (Boundary.check_collisions w b) in
  let hit := snd (Boundary.check_collisions w b) in
  (Boundary.x_max w < Body.x b ->
   Body.x b' = Boundary.x_max w /\ Body.v_x b' = - Body.v_x b /\ hit = true) /\
  (Body.x b < Boundary.x_min w -> Body.x b <= Boundary.x_max w ->
   Body.x b' = Boundary.x_min w /\ Body.v_x b' = - Body.v_x b /\ hit = true) /\
  (Boundary.y_max w < Body.y b ->
   Body.y b' = Boundary.y_max w /\ Body.v_y b' = - Body.v_y b /\ hit = true) /\
  (Body.y b < Boundary.y_min w -> Body.y b <= Boundary.y_max w ->
   Body.y b' = Boundary.y_min w /\ Body.v_y b' = - Body.v_y b /\ hit = true) /\
  (Boundary.x_max w < Body.x b -> Body.v_x b = 5 ->
   Body.v_x b' = -5 /\ Body.x b' = Boundary.x_max w) /\
  (Boundary.x_min w <= Body.x b <= Boundary.x_max w ->
   Body.x b' = Body.x b /\ Body.v_x b' = Body.v_x b) /\
  (Boundary.y_min w <= Body.y b <= Boundary.y_max w ->
   Body.y b' = Body.y b /\ Body.v_y b' = Body.v_y b) /\
  (Boundary.x_min w <= Body.x b <= Boundary.x_max w ->
   Boundary.y_min w <= Body.y b <= Boundary.y_max w ->
   b' = b /\ hit = false) /\
  (Body.mass b' = Body.mass b /\ Body.size b' = Body.size b /\
   Body.settings b' = Body.settings b /\
   Body.a_x b' = Body.a_x b /\ Body.a_y b' = Body.a_y b) /\
  (Boundary.x_min w <= Boundary.x_max w ->
   Boundary.y_min w <= Boundary.y_max w ->
   Boundary.check_collisions w b' = (b', false)).
Proof.
  cbv zeta.
  repeat match goal with |- _ /\ _ => split end.
  all: bounce_cases; bounce_done.
Qed.

(** The escaping sample, three units past the right wall at [v_x = 5],
    comes back on the wall at [v_x = -5], and the collision is reported. *)
Lemma boundary_bounce_witness :
  Boundary.x_max Sample.walls < Body.x Sample.escaping /\
  Body.v_x Sample.escaping = 5 /\
  Body.v_x (fst (Boundary.check_collisions Sample.walls Sample.escaping)) = -5 /\
  Body.x (fst (Boundary.check_collisions Sample.walls Sample.escaping)) = 600.
Proof.
  assert (Hpast : Boundary.x_max Sample.walls < Body.x Sample.escaping)
    by (cbn; lra).
  pose proof (boundary_bounce Sample.walls Sample.escaping) as H.
  cbv zeta in H. destruct H as (_ & _ & _ & _ & H5 & _).
  destruct (H5 Hpast eq_refl) as [Hv Hx].
  repeat split; assumption.
Defined.

(** * Properties of the main loop *)

Section MainLoop.

Variable State : Type.
Variable update_objects : State -> State.
Variable draw_objects : State -> list Simulation.Action.
Variable QUIT : Z.

Abbreviation sim := (Simulation.t State).
Abbreviation run := (Simulation.run State update_objects draw_objects QUIT).
Abbreviation run_loop :=
  (Simulation.run_loop State update_objects draw_objects QUIT).
Abbreviation frames := (Simulation.frames State update_objects draw_objects).
Abbreviation handle_events := (Simulation.handle_events QUIT).
Abbreviation no_quit := (Simulation.no_quit QUIT).
Abbreviation has_quit := (Simulation.has_quit QUIT).

Implicit Types (self : sim) (events : list Simulation.Event)
  (batches pre post : list (list Simulation.Event)).

Lemma handle_events_stopped events : handle_events events false = false.
Proof.
  unfold Simulation.handle_events.
  induction events as [|e events IH]; cbn [fold_left].
  - reflexivity.
  - destruct (Simulation.type e =? QUIT)%Z; exact IH.
Qed.

Lemma handle_events_no_quit events :
  no_quit events -> handle_events events true = true.
Proof.
  unfold Simulation.no_quit, Simulation.handle_events.
  induction 1 as [|e events He _ IH]; cbn [fold_left].
  - reflexivity.
  - destruct (Z.eqb_spec (Simulation.type e) QUIT) as [Heq | _].
    + contradiction.
    + exact IH.
Qed.

Lemma handle_events_has_quit events :
  has_quit events -> handle_events events true = false.
Proof.
  unfold Simulation.has_quit.
  induction 1 as [e events He | e events _ IH].
  - unfold Simulation.handle_events. cbn [fold_left].
    rewrite He, Z.eqb_refl. apply handle_events_stopped.
  - unfold Simulation.handle_events. cbn [fold_left].
    destruct (Simulation.type e =? QUIT)%Z.
    + apply handle_events_stopped.
    + exact IH.
Qed.

Lemma run_loop_no_quit batches : forall self,
  Forall no_quit batches ->
  run_loop batches self
  = (fst (frames (length batches) self),
     Simulation.Looping (snd (frames (length batches) self))).
Proof.
  induction batches as [|events batches IH]; intros self Hall.
  - reflexivity.
  - inversion Hall as [|? ? Hev Hrest]; subst.
    cbn [Simulation.run_loop Simulation.frames length].
    rewrite (handle_events_no_quit _ Hev), (IH _ Hrest).
    destruct (frames (length batches) _) as [out' self']. reflexivity.
Qed.

Lemma run_loop_first_quit pre : forall events post self,
  Forall no_quit pre ->
  has_quit events ->
  run_loop (pre ++ events :: post) self
  = (fst (frames (S (length pre)) self),
     Simulation.Exited (snd (frames (S (length pre)) self))).
Proof.
  induction pre as [|batch pre IH]; intros events post self Hall Hq.
  - cbn [app Simulation.run_loop Simulation.frames length].
    rewrite (handle_events_has_quit _ Hq). cbn [fst snd].
    rewrite app_nil_r. reflexivity.
  - inversion Hall as [|? ? Hev Hrest]; subst.
    change ((batch :: pre) ++ events :: post)
      with (batch :: (pre ++ events :: post)).
    cbn [Simulation.run_loop length].
    rewrite (handle_events_no_quit _ Hev), (IH _ post _ Hrest Hq).
    change (frames (S (S (length pre))) self)
      with (let self1 := Simulation.update State update_objects self in
            let out :=
              Simulation.draw State draw_objects self1
              ++ [Simulation.Tick
                    (Settings.FPS (Simulation.settings State self1))] in
            let (out', self') := frames (S (length pre)) self1 in
            (out ++ out', self')).
    cbv zeta.
    destruct (frames (S (length pre)) _) as [out' self']. reflexivity.
Qed.

Lemma frames_state n : forall self,
  snd (frames n self)
  = Simulation.mk State (Simulation.settings State self)
      (Nat.iter n update_objects (Simulation.objects State self)).
Proof.
  induction n as [|n IH]; intros self.
  - destruct self. reflexivity.
  - rewrite Nat.iter_succ_r. cbn [Simulation.frames].
    specialize (IH (Simulation.update State update_objects self)).
    destruct (frames n _) as [out' self']. cbn [snd] in *.
    rewrite IH. reflexivity.
Qed.

(** X5.  The loop is left at the first frame whose events hold a [QUIT],
    wherever in the frame's events it stands, and that frame is still
    updated, drawn and ticked: when [k] frames without a [QUIT] come
    first, [run] performs exactly the actions of [k + 1] whole frames and
    then [pygame.quit()], leaves the objects updated [k + 1] times and the
    settings as they were, and reads none of the later events. *)
Theorem run_exits_at_first_quit pre events post self :
  Forall no_quit pre ->
  has_quit events ->
  run (pre ++ events :: post) self
  = (fst (frames (S (length pre)) self) ++ [Simulation.Quit],
     Simulation.Exited
       (Simulation.mk State (Simulation.settings State self)
          (Nat.iter (S (length pre)) update_objects
             (Simulation.objects State self)))).
Proof.
  intros Hall Hq. unfold Simulation.run.
  rewrite (run_loop_first_quit pre events post self Hall Hq), frames_state.
  reflexivity.
Qed.

(** X6.  Without a [QUIT] the loop never ends by itself: over any input
    whose frames hold none, [run] performs one whole frame per batch of
    events, updates the objects once per frame, is still looping when the
    input runs out, and has not called [pygame.quit()]. *)
Theorem run_without_quit_keeps_looping batches self :
  Forall no_quit batches ->
  run batches self
  = (fst (frames (length batches) self),
     Simulation.Looping
       (Simulation.mk State (Simulation.settings State self)
          (Nat.iter (length batches) update_objects
             (Simulation.objects State self)))).
Proof.
  intros Hall. unfold Simulation.run.
  rewrite (run_loop_no_quit batches self Hall), frames_state.
  reflexivity.
Qed.

End MainLoop.

Lemma sample_quiet_frames :
  Forall (Simulation.no_quit Sample.QUIT) Sample.quiet_frames.
Proof.
  unfold Sample.quiet_frames, Simulation.no_quit.
  repeat constructor. cbn. discriminate.
Qed.

Lemma run_exits_at_first_quit_witness :
  Simulation.has_quit Sample.QUIT Sample.closing_frame /\
  exists out,
    Simulation.run Body.t Body.update Simulation.draw_body Sample.QUIT
      [[]; [Sample.key_down]; Sample.closing_frame; [Sample.key_down]]
      Sample.one_body
    = (out ++ [Simulation.Quit],
       Simulation.Exited
         (Simulation.mk Body.t Sample.settings_60fps
            (Nat.iter 3 Body.update Sample.coasting))).
Proof.
  assert (Hq : Simulation.has_quit Sample.QUIT Sample.closing_frame).
  { unfold Simulation.has_quit, Sample.closing_frame.
    apply Exists_cons_tl, Exists_cons_hd. reflexivity. }
  split; [exact Hq|]. eexists.
  exact (run_exits_at_first_quit Body.t Body.update Simulation.draw_body
           Sample.QUIT Sample.quiet_frames Sample.closing_frame
           [[Sample.key_down]] Sample.one_body sample_quiet_frames Hq).
Defined.

Lemma run_without_quit_keeps_looping_witness :
  exists out,
    Simulation.run Body.t Body.update Simulation.draw_body Sample.QUIT
      Sample.quiet_frames Sample.one_body
    = (out,
       Simulation.Looping
         (Simulation.mk Body.t Sample.settings_60fps
            (Nat.iter 2 Body.update Sample.coasting))).
Proof.
  eexists.
  exact (run_without_quit_keeps_looping Body.t Body.update
           Simulation.draw_body Sample.QUIT Sample.quiet_frames
           Sample.one_body sample_quiet_frames).
Defined.

(** * Properties of the orbit as a run of steps *)

Section Orbit.

Variable G : R.
Variable d_T : R.

Implicit Types (p : CelestialBody.Planet).



End Orbit.

Section OrbitFailures.

Variable G : R.
Variable d_T : R.

Implicit Types (p : CelestialBody.Planet) (n : nat).




End OrbitFailures.

(** * Binary64: facts about the rounded operations

    Read off the bit-level specification of the operations: a change of
    sign goes through multiplication and division, [x - y] and [y - x] are
    opposite unless both are [+0.0], and the zeros behave as zeros. *)

Section Binary64Facts.

Import Floats.PrimFloat Floats.SpecFloat Floats.FloatOps Floats.FloatAxioms.
Local Open Scope float_scope.









Lemma SFsub_diag X :
  SFltb (SFabs X) (S754_infinity false) = true ->
  SF64sub X X = S754_zero false.
Proof.
  unfold SF64sub.
  destruct X as [s|s| |s m e]; cbn [SFabs SFsub]; intros Hfin;
    try discriminate.
  - destruct s; reflexivity.
  - rewrite Z.sub_diag. reflexivity.
Qed.






Lemma sub_diag x : B64.finite x -> x - x = 0.
Proof.
  unfold B64.finite. intros H. apply Prim2SF_inj. rewrite sub_spec.
  rewrite ltb_spec, abs_spec in H. apply SFsub_diag. exact H.
Qed.












End Binary64Facts.

(** * Binary64: the integration step *)

Section Binary64Body.

Import Floats.PrimFloat Floats.SpecFloat Floats.FloatOps Floats.FloatAxioms.
Local Open Scope float_scope.

Implicit Types (b : B64.Body.t) (n : nat).















End Binary64Body.

(** * Binary64: the gravitational force *)

Section Binary64Gravity.

Import Floats.PrimFloat Floats.SpecFloat Floats.FloatOps Floats.FloatAxioms.
Local Open Scope float_scope.

Implicit Types (G d_T : float) (a b : B64.CelestialBody.t)
  (p : B64.CelestialBody.Planet).

(** The squared distance the code divides by, and the length that
    [normalize] divides by. *)
Abbreviation r2_of a b :=
  (B64.Vector2.distance_squared_to
     (B64.CelestialBody.pos a) (B64.CelestialBody.pos b)).
Abbreviation len_of a b :=
  (B64.Vector2.length
     (B64.Vector2.sub (B64.CelestialBody.pos b) (B64.CelestialBody.pos a))).















(** X11.  The two styles of the curriculum integrate alike, bit for bit:
    where the planet's [update] returns, it lands where [Body.update]
    takes the body that has the planet's position and velocity, the
    acceleration [f / mass] of the planet's force, and [d_T] as its time
    step; where it raises, the force or the division by the mass
    raised. *)
Theorem planet_step_is_body_step_binary64 G d_T p
    (s : B64.Settings.t) (size : Z) :
  B64.Settings.d_t s = d_T ->
  match B64.CelestialBody.update G d_T p with
  | Ok p' =>
      exists f acc,
        B64.CelestialBody.force_vec_due_to G p (B64.CelestialBody.sun p)
        = Ok f /\
        B64.Vector2.truediv f (B64.CelestialBody.mass p) = Ok acc /\
        let b' := B64.Body.update (B64.as_body s size p acc) in
        B64.CelestialBody.pos p'
        = B64.Vector2.mk (B64.Body.x b') (B64.Body.y b') /\
        B64.CelestialBody.vel p'
        = B64.Vector2.mk (B64.Body.v_x b') (B64.Body.v_y b') /\
        B64.CelestialBody.mass p' = B64.Body.mass b' /\
        B64.CelestialBody.sun p' = B64.CelestialBody.sun p
  | Raise e =>
      B64.CelestialBody.force_vec_due_to G p (B64.CelestialBody.sun p)
      = Raise e
      \/ exists f,
           B64.CelestialBody.force_vec_due_to G p (B64.CelestialBody.sun p)
           = Ok f /\
           B64.Vector2.truediv f (B64.CelestialBody.mass p) = Raise e
  end.
Proof.
  intros Hdt. unfold B64.CelestialBody.update.
  destruct (B64.CelestialBody.force_vec_due_to G p (B64.CelestialBody.sun p))
    as [f | e]; cbn [bind]; [|left; reflexivity].
  destruct (B64.Vector2.truediv f (B64.CelestialBody.mass p))
    as [acc | e] eqn:Hdiv; cbn [bind].
  - exists f, acc. rewrite <- Hdt. cbv zeta.
    split; [reflexivity | split; [exact Hdiv | repeat split]].
  - right. exists f. split; [reflexivity | exact Hdiv].
Qed.

(** The sample planet, with [G] and the time step both one. *)
Lemma planet_step_is_body_step_binary64_witness :
  exists f acc,
    B64.CelestialBody.force_vec_due_to 1 B64.Sample.the_planet
      B64.Sample.the_sun = Ok f /\
    B64.Vector2.truediv f 2 = Ok acc /\
    B64.Vector2.mk 2.7599999999999998 4.6799999999999997
    = B64.Vector2.mk
        (B64.Body.x
           (B64.Body.update
              (B64.as_body B64.Sample.settings_1s 50 B64.Sample.the_planet
                 acc)))
        (B64.Body.y
           (B64.Body.update
              (B64.as_body B64.Sample.settings_1s 50 B64.Sample.the_planet
                 acc))).
Proof.
  destruct (planet_step_is_body_step_binary64 1 1 B64.Sample.the_planet
              B64.Sample.settings_1s 50 eq_refl)
    as (f & acc & Hf & Hacc & Hpos & _).
  exists f, acc. split; [exact Hf | split; [exact Hacc | exact Hpos]].
Defined.

End Binary64Gravity.
